(** * JSON WHERE-clause evaluation of pkg/s3select (jsonHelpers.go)

    A shallow embedding of [jsonRead], [jsonValue], [jsonWhereClause] and
    [jsonEvaluateBetween], and the properties of the evaluator that follow
    from the code; then the information calls of the admin client
    (pkg/madmin) and the container entry point
    (dockerscripts/docker-entrypoint.sh).

    Conventions.
    - A Go result [(bool, error)] is a pair [bool * option error]; [None] is
      the nil error.
    - A Go [interface{}] operand is an [option]; [None] is the nil interface.
    - Writes to standard output are threaded through an explicit state, so
      that an evaluation is a function from the output written so far to a
      result and the output written after it.
    - The SQL parser, the JSON path resolver, the JSON stream decoder and the
      helpers of the package that are declared in other files are parameters
      of the development (record [Helpers], class [Decoder]). *)

From Stdlib Require Import ZArith Ascii String.
From stdpp Require Import base strings gmap list.

Local Open Scope string_scope.
Local Open Scope list_scope.

(** ** Errors *)

(** The error values the evaluator can see.  [ErrUnsupportedSQLOperation] is
    the package's own error variable, [io_EOF] is the end-of-stream error of
    the io package, every other error value is an [ErrOther]. *)
Inductive error : Type :=
| ErrUnsupportedSQLOperation
| io_EOF
| ErrOther (msg : string).

#[global] Instance error_eq_dec : EqDecision error.
Proof. solve_decision. Defined.

(** ** The expression tree of the SQL parser *)

Module sqlparser.

(** The type tag of a literal ([SQLVal.Type]). *)
Inductive ValType : Type :=
| StrVal | IntVal | FloatVal | HexNum | HexVal | ValArg | BitVal.

(** The node kinds of the parser's [Expr] interface.  Every kind but
    [BoolVal] is a pointer to a struct (or a slice) in Go; the kinds the
    evaluator never looks into are gathered under [OtherExpr], tagged with the
    Go type name. *)
#[warnings="-register-all"]
Inductive Expr : Type :=
| AndExpr (Left Right : Expr)
| OrExpr (Left Right : Expr)
| NotExpr (e : Expr)
| ParenExpr (e : Expr)
| ComparisonExpr (Operator : string) (Left Right : Expr)
| RangeCond (Operator : string) (Left From To : Expr)
| IsExpr (Operator : string) (e : Expr)
| SQLVal (Type_ : ValType) (Val : string)
| NullVal
| BoolVal (b : bool)
| ColName (Name : string) (Qualifier : string)
| FuncExpr (Name : string) (Exprs : list Expr)
| OtherExpr (kind : string).

End sqlparser.
Import sqlparser.

(** ** The result type of the JSON path resolver *)

Module gjson.

(** [gjson.Type]: the zero value is [Null]. *)
Inductive Type_ : Type := Null | False_ | Number | String_ | True_ | JSON.

(** [gjson.Result]; [Num] is kept as the text of the number. *)
Record Result : Type := mkResult {
  Type_of : Type_;
  Raw : string;
  Str : string;
  Num : string
}.

(** The zero [Result], returned for a path that resolves to nothing. *)
Definition zero : Result := mkResult Null "" "" "".

(** [Result.Exists]. *)
Definition Exists (t : Result) : bool :=
  match Type_of t with
  | Null => negb (String.eqb (Raw t) "")
  | _ => true
  end.

(** [Result.String]; [FormatFloat] renders the number. *)
Definition String (FormatFloat : string -> string) (t : Result) : string :=
  match Type_of t with
  | False_ => "false"
  | Number => FormatFloat (Num t)
  | String_ => Str t
  | JSON => Raw t
  | True_ => "true"
  | Null => ""
  end.

End gjson.

(** ** Standard output *)

(** One operand of a [fmt.Println] call. *)
Inductive PrintArg : Type :=
| PStr (s : string)
| PMap (m : gmap string Z).

(** Standard output: the operand lists of the [Println] calls made so far,
    oldest first. *)
Definition Stdout : Type := list (list PrintArg).

(** A computation that may write to standard output. *)
Definition IO (A : Type) : Type := Stdout -> A * Stdout.

Definition ret {A : Type} (a : A) : IO A := fun out => (a, out).

Definition bind {A B : Type} (c : IO A) (k : A -> IO B) : IO B :=
  fun out => let '(a, out') := c out in k a out'.

Notation "'let*' p := c 'in' k" := (bind c (fun p => k))
  (at level 10, p pattern, c at level 100, k at level 200).

Definition Println (args : list PrintArg) : IO unit :=
  fun out => (tt, out ++ [args]).

(** A Go [(bool, error)] result. *)
Definition Outcome : Type := bool * option error.

(** ** Helpers declared outside jsonHelpers.go *)

(** What the evaluator calls and does not define: [evaluateParserType] and
    [evaluateOperator] of the package, [ColIdent.CompliantName] of the SQL
    parser, [gjson.Get] and the number rendering of [Result.String].
    [Operand] is the type of the non-nil values [evaluateParserType]
    returns. *)
Record Helpers : Type := mkHelpers {
  Operand : Type;
  evaluateParserType : ValType -> string -> option Operand * option error;
  evaluateOperator : string -> string -> option Operand -> Outcome;
  CompliantName : string -> string;
  gjson_Get : string -> string -> gjson.Result;
  FormatFloat : string -> string
}.

Section Evaluator.

Variable H : Helpers.

(** ** jsonValue *)

Definition jsonValue (input : string) (row : string) : string :=
  let value := gjson_Get H row input in
  gjson.String (FormatFloat H) value.

(** ** jsonEvaluateBetween *)

Definition newline : string := String "010"%char "".

(** The first operand of the [Println] call of [jsonEvaluateBetween]. *)
Definition between_banner : string :=
  " In jsonEvaluateBetween  alias %#v " +:+ newline +:+ " record %#v "
  +:+ newline +:+ "   columnNames  %#v".

(** The body is the [Println] and [return false, nil]; the rest of the Go
    function is commented out. *)
Definition jsonEvaluateBetween (betweenExpr : Expr) (alias : string)
    (record : string) (columnNames : gmap string Z) : IO Outcome :=
  let* _ :=
    Println [PStr between_banner; PStr alias; PStr record; PMap columnNames] in
  ret (false, None).

(** ** jsonWhereClause *)

(** [fmt.Sprintf("%v", whereClause) == "false"].  A pointer to a struct is
    printed with a leading [&{], a slice with a leading bracket; of the
    parser's node kinds only the boolean literal [BoolVal] is printed as
    [true] or [false]. *)
Definition prints_false (whereClause : Expr) : bool :=
  match whereClause with
  | BoolVal b => negb b
  | _ => false
  end.

(** The [*sqlparser.RangeCond] case, given the call of the delegate. *)
Definition rangeCondCase (operator : string) (delegate : IO Outcome)
  : IO Outcome :=
  if negb (String.eqb operator "between")
     && negb (String.eqb operator "not between")
  then ret (false, Some ErrUnsupportedSQLOperation)
  else if String.eqb operator "not between"
  then
    let* (myResult, err) := delegate in
    match err with
    | Some e => ret (false, Some e)
    | None => ret (negb myResult, None)
    end
  else
    let* (myResult, err) := delegate in
    match err with
    | Some e => ret (false, Some e)
    | None => ret (myResult, None)
    end.

Fixpoint jsonWhereClause (row : string) (columnNames : gmap string Z)
    (alias : string) (whereClause : Expr) {struct whereClause} : IO Outcome :=
  if prints_false whereClause then ret (false, None) else
  match whereClause with
  | IsExpr _ _ =>
      (* To be Implemented *)
      ret (true, None)
  | RangeCond operator _ _ _ =>
      rangeCondCase operator
        (jsonEvaluateBetween whereClause alias row columnNames)
  | ComparisonExpr operator exprLeft exprRight =>
      let '(operand, err) :=
        match exprRight with
        | SQLVal ty val => evaluateParserType H ty val
        | _ => (None, None)
        end in
      match err with
      | Some e => ret (false, Some e)
      | None =>
          match exprLeft with
          | ColName name _ =>
              ret (evaluateOperator H
                     (jsonValue (CompliantName H name) row) operator operand)
          | _ => ret (true, None)
          end
      end
  | AndExpr exprLeft exprRight =>
      let* (leftVal, lerr) := match exprLeft with
        | ComparisonExpr _ _ _ => jsonWhereClause row columnNames alias exprLeft
        | _ => ret (false, None)
        end in
      match lerr with
      | Some e => ret (false, Some e)
      | None =>
          let* (rightVal, rerr) := match exprRight with
            | ComparisonExpr _ _ _ =>
                jsonWhereClause row columnNames alias exprRight
            | _ => ret (false, None)
            end in
          match rerr with
          | Some e => ret (false, Some e)
          | None => ret (rightVal && leftVal, None)
          end
      end
  | OrExpr exprLeft exprRight =>
      let* (leftVal, _) := match exprLeft with
        | ComparisonExpr _ _ _ => jsonWhereClause row columnNames alias exprLeft
        | _ => ret (false, None)
        end in
      let* (rightVal, _) := match exprRight with
        | ComparisonExpr _ _ _ => jsonWhereClause row columnNames alias exprRight
        | _ => ret (false, None)
        end in
      ret (rightVal || leftVal, None)
  | _ => ret (true, None)
  end.

End Evaluator.

(** ** jsonRead *)

(** A decoded JSON document, as [json.Decoder] stores it in an
    [interface{}]: nil for [null], a bool, a float64 (kept as the text of the
    number), a string, a slice, or a string-keyed map. *)
#[warnings="-register-all"]
Inductive Any : Type :=
| AnyNil
| AnyBool (b : bool)
| AnyFloat64 (n : string)
| AnyString (s : string)
| AnySlice (l : list Any)
| AnyMap (m : gmap string Any).

(** The two methods of [json.Decoder] that [jsonRead] calls, over a decoder
    state [D].  [Decode] yields the decoded document or an error, and the
    state after the call. *)
Class Decoder (D : Type) : Type := {
  More : D -> bool;
  Decode : D -> (Any + error) * D
}.

(** How a call ends: with a return value, in [log.Fatal] (the process
    exits), or in a run-time panic. *)
Inductive Exit (A : Type) : Type :=
| Return (a : A)
| LogFatal (e : error)
| Panic.
Arguments Return {A} a.
Arguments LogFatal {A} e.
Arguments Panic {A}.

(** [JSONInput], reduced to the field [jsonRead] reads. *)
Record JSONInput (D : Type) : Type := mkJSONInput { reader : D }.
Arguments mkJSONInput {D} reader.
Arguments reader {D} _.

(** Every path through the body of the [for dec.More()] loop leaves the
    function or the loop, so the loop runs its body at most once.  The
    returned map is [None] for Go's nil map.  The type assertion
    [m.(map[string]interface{})] has no comma-ok form: it panics when [m] is
    not a map. *)
Definition jsonRead {D : Type} `{Decoder D} (r : JSONInput D)
  : Exit (option (gmap string Any)) * D :=
  let dec := reader r in
  if More dec then
    match Decode dec with
    | (inr err, dec') =>
        if decide (err = io_EOF) then (Return None, dec')
        else (LogFatal err, dec')
    | (inl m, dec') =>
        match m with
        | AnyMap f => (Return (Some f), dec')
        | _ => (Panic, dec')
        end
    end
  else (Return None, dec).

(** ** Node kinds *)

Definition is_comparison (e : Expr) : bool :=
  match e with ComparisonExpr _ _ _ => true | _ => false end.

Definition is_ColName (e : Expr) : bool :=
  match e with ColName _ _ => true | _ => false end.

Definition is_SQLVal (e : Expr) : bool :=
  match e with SQLVal _ _ => true | _ => false end.

(** The node kinds [jsonWhereClause] has a branch for: the literal [false],
    the IS expression, the range condition, the comparison, AND and OR. *)
Definition dispatched (e : Expr) : bool :=
  match e with
  | IsExpr _ _ | RangeCond _ _ _ _ | ComparisonExpr _ _ _
  | AndExpr _ _ | OrExpr _ _ => true
  | BoolVal b => negb b
  | _ => false
  end.

(** What AND and OR do with one operand: a comparison is evaluated by the
    recursive call, any other node leaves the operand's variable at its zero
    value [false]. *)
Definition evalOperand (H : Helpers) (row : string)
    (columnNames : gmap string Z) (alias : string) (e : Expr) : IO Outcome :=
  match e with
  | ComparisonExpr _ _ _ => jsonWhereClause H row columnNames alias e
  | _ => ret (false, None)
  end.

(** ** A sample instantiation

    Small executable stand-ins for the helpers and the decoder, used to run
    the evaluator on concrete records. *)

Module Sample.

Definition quote : string := String "034"%char "".

(** [q s] is [s] between double quotes. *)
Definition q (s : string) : string := quote +:+ s +:+ quote.

(** The prefix of [s] before the first character satisfying [stop]. *)
Fixpoint take_until (stop : ascii -> bool) (s : string) : string :=
  match s with
  | EmptyString => EmptyString
  | String c s' => if stop c then EmptyString else String c (take_until stop s')
  end.

Definition is_quote (c : ascii) : bool := Ascii.eqb c "034"%char.

Definition ends_token (c : ascii) : bool :=
  Ascii.eqb c ","%char || Ascii.eqb c "}"%char.

(** Lookup of a top-level key in a flat JSON object written without blanks. *)
Definition Get (row path : string) : gjson.Result :=
  let key := q path +:+ ":" in
  match index 0 key row with
  | None => gjson.zero
  | Some i =>
      let rest := substring (i + String.length key) (String.length row) row in
      match rest with
      | EmptyString => gjson.zero
      | String c rest' =>
          if is_quote c
          then let s := take_until is_quote rest' in
               gjson.mkResult gjson.String_ (q s) s ""
          else let n := take_until ends_token rest in
               gjson.mkResult gjson.Number n "" n
      end
  end.

(** Literals of type string, integer and float are taken as their text; the
    other literal types are rejected. *)
Definition parserType (ty : ValType) (val : string)
  : option string * option error :=
  match ty with
  | StrVal | IntVal | FloatVal => (Some val, None)
  | _ => (None, Some (ErrOther "unsupported literal"))
  end.

(** Equality and inequality on the text of the operand; a nil operand is
    compared as the empty string. *)
Definition operator (myTblVal : string) (op : string)
    (operand : option string) : Outcome :=
  let o := default "" operand in
  if String.eqb op "=" then (String.eqb myTblVal o, None)
  else if String.eqb op "!=" then (negb (String.eqb myTblVal o), None)
  else (false, Some ErrUnsupportedSQLOperation).

Definition helpers : Helpers :=
  mkHelpers string parserType operator (fun s => s) Get (fun n => n).

(** A decoder over the list of the outcomes of the [Decode] calls to come. *)
#[global] Instance list_decoder : Decoder (list (Any + error)) := {
  More d := match d with [] => false | _ => true end;
  Decode d := match d with
              | [] => (inr io_EOF, [])
              | x :: d' => (x, d')
              end
}.

(** The record [{"status":"ok"}]. *)
Definition row_status : string := "{" +:+ q "status" +:+ ":" +:+ q "ok" +:+ "}".

(** The record [{"age":20,"name":"alice"}]. *)
Definition row_age : string :=
  "{" +:+ q "age" +:+ ":20," +:+ q "name" +:+ ":" +:+ q "alice" +:+ "}".

End Sample.

(** ** The one node kind that writes *)

(** The nodes for which [jsonWhereClause] calls [jsonEvaluateBetween]: a
    range condition whose operator is [between] or [not between]. *)
Definition calls_between (e : Expr) : bool :=
  match e with
  | RangeCond operator _ _ _ =>
      String.eqb operator "between" || String.eqb operator "not between"
  | _ => false
  end.

(** * The information calls of the admin client (pkg/madmin)

    [ServerInfo], [ServerDrivesPerfInfo], [ServerCPULoadInfo],
    [ServerMemUsageInfo] and [ServerLambdaInfo].  What they call and do not
    define ([executeMethod], [closeResponse], [httpRespToErrorResponse],
    the reading of the body and the JSON decoding of it) is a parameter; the
    calls they make are recorded in a trace. *)

Module madmin.

(** [requestData], reduced to the two fields the calls set; [url.Values] is
    a map from a key to its list of values. *)
Record requestData : Type := mkRequestData {
  relPath : string;
  queryValues : gmap string (list string)
}.

(** [url.Values.Set]: the key's list becomes the single value. *)
Definition Values_Set (v : gmap string (list string)) (key value : string)
  : gmap string (list string) := <[key := [value]]> v.

(** The request of an information call: the path and the one query
    parameter. *)
Definition request_of (path key value : string) : requestData :=
  mkRequestData path (Values_Set ∅ key value).

(** [http.StatusOK]. *)
Definition StatusOK : Z := 200.

(** The client's collaborators over a response type [Response]:
    [StatusCode] is the field of [*http.Response]; [executeMethod] returns a
    response pointer ([None] is nil) and an error; [ReadAll] is
    [ioutil.ReadAll(resp.Body)]. *)
Record Transport (Response : Type) : Type := mkTransport {
  StatusCode : Response -> Z;
  executeMethod : string -> requestData -> option Response * option error;
  httpRespToErrorResponse : option Response -> error;
  ReadAll : Response -> string * option error
}.
Arguments mkTransport {Response}.
Arguments StatusCode {Response}.
Arguments executeMethod {Response}.
Arguments httpRespToErrorResponse {Response}.
Arguments ReadAll {Response}.

(** The calls written in a function's own body, in the order they are made:
    the call of [executeMethod], the call of [ioutil.ReadAll] on the body and
    the deferred call of [closeResponse].  What the collaborators do in turn
    (what [httpRespToErrorResponse] or [closeResponse] read from the
    response) is not recorded. *)
Inductive Event (Response : Type) : Type :=
| Execute (method : string) (req : requestData)
| ReadBody (resp : Response)
| CloseResponse (resp : option Response).
Arguments Execute {Response}.
Arguments ReadBody {Response}.
Arguments CloseResponse {Response}.

Section Calls.

Context {Response : Type} (t : Transport Response).

(** The element type of the decoded slice, and [json.Unmarshal] into a
    pointer to a nil slice of it: the slice after the call ([None] is nil,
    which a JSON [null] leaves it) and the error. *)
Context {T : Type} (Unmarshal : string -> option (list T) * option error).

(** The body the five functions share; they differ in the path, in the
    query parameter and in the element type.  The deferred
    [closeResponse(resp)] runs when the function is left, also when the read
    of [resp.StatusCode] through a nil pointer panics. *)
Definition getInfo (path key value : string) (trace : list (Event Response))
  : Exit (option (list T) * option error) * list (Event Response) :=
  let v := Values_Set ∅ key value in
  let req := mkRequestData path v in
  let '(resp, err) := executeMethod t "GET" req in
  let trace := trace ++ [Execute "GET" req] in
  let '(result, trace) :=
    match err with
    | Some e => (Return (None, Some e), trace)
    | None =>
        match resp with
        | None => (Panic, trace)
        | Some rp =>
            if negb (StatusCode t rp =? StatusOK)%Z
            then (Return (None, Some (httpRespToErrorResponse t resp)), trace)
            else
              let '(respBytes, err) := ReadAll t rp in
              let trace := trace ++ [ReadBody rp] in
              match err with
              | Some e => (Return (None, Some e), trace)
              | None =>
                  let '(info, err) := Unmarshal respBytes in
                  match err with
                  | Some e => (Return (None, Some e), trace)
                  | None => (Return (info, None), trace)
                  end
              end
        end
    end in
  (result, trace ++ [CloseResponse resp]).

Definition ServerInfo := getInfo "/v1/info" "type" "server".

Definition ServerDrivesPerfInfo := getInfo "/v1/performance" "perfType" "drive".

Definition ServerCPULoadInfo := getInfo "/v1/performance" "perfType" "cpu".

Definition ServerMemUsageInfo := getInfo "/v1/performance" "perfType" "mem".

Definition ServerLambdaInfo := getInfo "/v1/info" "type" "lambda".

End Calls.

(** A sample server: responses are a status code and a body; the drive
    performance endpoint answers 200, the CPU one 503, the memory one fails
    in transport, every other request gets no response and no error. *)
Definition sample_transport : Transport (Z * string) :=
  mkTransport fst
    (fun method req =>
       match queryValues req !! "perfType" with
       | Some ["drive"] => (Some (200%Z, "[1,2]"), None)
       | Some ["cpu"] => (Some (503%Z, "busy"), None)
       | Some ["mem"] => (None, Some (ErrOther "connection refused"))
       | _ => (None, None)
       end)
    (fun resp => ErrOther "error response")
    (fun resp => (snd resp, None)).

(** A sample decoder: the body [[1,2]] decodes to the slice of 1 and 2,
    any other body is a syntax error. *)
Definition sample_Unmarshal (body : string) : option (list Z) * option error :=
  if String.eqb body "[1,2]" then (Some [1%Z; 2%Z], None)
  else (None, Some (ErrOther "invalid character")).

End madmin.

(** * The container entry point (dockerscripts/docker-entrypoint.sh)

    The file system is a parameter: which paths are regular files and
    directories, the content [cat] prints and the owner column of [ls -ld].
    [docker_secrets_env] expands two variables without quotes; such an
    expansion is one word only when its value holds no blank and no pattern
    character, and the model gives a result only then ([unquoted]). *)

Module entrypoint.

Record FileSystem : Type := mkFileSystem {
  is_file : string -> bool;
  is_dir : string -> bool;
  cat : string -> string;
  ls_owner : string -> string
}.
(* [cat p] is the value of the command substitution of [cat p];
   [ls_owner p] is the third column of [ls -ld p]. *)

(** The first lines of the script: if the first argument is not [minio] and
    is not empty, [minio] is put in front of the arguments.  With no
    argument [${1}] is empty. *)
Definition prepend_minio (args : list string) : list string :=
  let first := match args with a :: _ => a | [] => "" end in
  if negb (String.eqb first "minio")
  then if negb (String.eqb first "") then "minio" :: args else args
  else args.

(** A variable's expansion: empty when it is unset. *)
Definition expand (env : gmap string string) (name : string) : string :=
  default "" (env !! name).

(** The characters that make the shell treat an unquoted expansion as
    something other than one literal word: the blanks of the default [IFS]
    (space, tab, newline), at which the value is split into fields, and the
    pattern characters [*], [?], [[] and the backslash, with which a field
    is matched against file names. *)
Definition splits_or_globs (c : ascii) : bool :=
  Ascii.eqb c " " || Ascii.eqb c "009" || Ascii.eqb c "010"
  || Ascii.eqb c "*" || Ascii.eqb c "?" || Ascii.eqb c "["
  || Ascii.eqb c "092".

Fixpoint plain_word (value : string) : bool :=
  match value with
  | EmptyString => true
  | String c rest => negb (splits_or_globs c) && plain_word rest
  end.

(** The expansion [$NAME] written without quotes, of a variable whose value
    is not empty: the value itself, as one word, when it is a plain word.
    Otherwise the shell splits the value or matches it against file names;
    what [[ ... ]] is then given depends on the number of fields and on the
    names in the current directory, and is not modelled: [None]. *)
Definition unquoted (value : string) : option string :=
  if plain_word value then Some value else None.

(** [docker_secrets_env], as a function on the exported environment.  The
    tests [[ -f $ACCESS_KEY_FILE ... ]] take the two paths unquoted, [cat]
    takes them quoted.  [None]: one of the two unquoted expansions is not a
    plain word. *)
Definition docker_secrets_env (fs : FileSystem) (env : gmap string string)
  : option (gmap string string) :=
  let ACCESS_KEY_FILE := "/run/secrets/" +:+ expand env "MINIO_ACCESS_KEY_FILE" in
  let SECRET_KEY_FILE := "/run/secrets/" +:+ expand env "MINIO_SECRET_KEY_FILE" in
  match unquoted ACCESS_KEY_FILE, unquoted SECRET_KEY_FILE with
  | Some access_word, Some secret_word =>
      Some
        (if is_file fs access_word && is_file fs secret_word then
           let env :=
             if is_file fs access_word
             then <["MINIO_ACCESS_KEY" := cat fs ACCESS_KEY_FILE]> env
             else env in
           let env :=
             if is_file fs secret_word
             then <["MINIO_SECRET_KEY" := cat fs SECRET_KEY_FILE]> env
             else env in
           env
         else env)
  | _, _ => None
  end.

(** What the script does to the file system. *)
Inductive Action : Type :=
| Mkdir_p (dir : string)
| Chown_minio (dir : string).

(** The state of the loop of [docker_switch_non_root]: the variable
    [owner], the lines echoed and the actions taken. *)
Record Scan : Type := mkScan {
  owner : string;
  echoed : list string;
  actions : list Action
}.

(** The [for var in "$@"] loop. *)
Fixpoint scan (fs : FileSystem) (vars : list string) (s : Scan) : Scan :=
  match vars with
  | [] => s
  | var :: rest =>
      let s := mkScan (owner s) (echoed s ++ [" var " +:+ var]) (actions s) in
      if String.eqb var "minio" then scan fs rest s
      else if String.eqb var "gateway"
      then scan fs rest (mkScan "minio" (echoed s) (actions s))
      else if String.eqb var "server" then scan fs rest s
      else if is_dir fs var then
        if is_dir fs (var +:+ "/.minio.sys")
        then mkScan (ls_owner fs (var +:+ "/.minio.sys")) (echoed s) (actions s)
        else mkScan "minio" (echoed s)
               (actions s ++ [Mkdir_p var; Chown_minio var])
      else scan fs rest s
  end.

(** The words the loop steps over without testing for a directory. *)
Definition skipped (var : string) : bool :=
  String.eqb var "minio" || String.eqb var "gateway"
  || String.eqb var "server".

(** No word of [vars] reaches the branch of the directories. *)
Definition no_directory (fs : FileSystem) (vars : list string) : bool :=
  forallb (fun var => skipped var || negb (is_dir fs var)) vars.

Definition has_gateway (vars : list string) : bool :=
  existsb (fun var => String.eqb var "gateway") vars.

(** The line the loop echoes for a word. *)
Definition echo_var (var : string) : string := " var " +:+ var.

(** How the script ends. *)
Inductive End_ : Type :=
| SuExec (user : string) (argv : list string)
| Exec (argv : list string)
| ExitStatus (code : Z).

(** [docker_switch_non_root "$@"]; [owner0] is the value of the variable
    [owner] when the function is entered. *)
Definition docker_switch_non_root (fs : FileSystem) (owner0 : string)
    (args : list string) : End_ * Scan :=
  let s := scan fs args (mkScan owner0 [] []) in
  if String.eqb (owner s) "minio" then (SuExec (owner s) args, s)
  else if String.eqb (owner s) "root" then (Exec args, s)
  else (ExitStatus 1,
        mkScan (owner s)
          (echoed s ++ [" Exiting as user is not root or minio "])
          (actions s)).


(** A sample file system: [/data] is a fresh directory, [/export] a
    directory with a [.minio.sys] owned by root, [/home] one with a
    [.minio.sys] owned by the user [app]; the two secret files exist. *)
Definition sample_fs : FileSystem :=
  mkFileSystem
    (fun p => String.eqb p "/run/secrets/access"
              || String.eqb p "/run/secrets/secret")
    (fun p => String.eqb p "/data" || String.eqb p "/export"
              || String.eqb p "/export/.minio.sys" || String.eqb p "/home"
              || String.eqb p "/home/.minio.sys")
    (fun p => if String.eqb p "/run/secrets/access" then "AKIA" else "s3cr3t")
    (fun p => if String.eqb p "/export/.minio.sys" then "root" else "app").

End entrypoint.


(** * Properties *)

(** ** Running the sample *)

Example sample_Get_status :
  jsonValue Sample.helpers "status" Sample.row_status = "ok".
Proof. reflexivity. Qed.

Example sample_Get_age : jsonValue Sample.helpers "age" Sample.row_age = "20".
Proof. reflexivity. Qed.

Example sample_Get_missing :
  jsonValue Sample.helpers "size" Sample.row_age = "".
Proof. reflexivity. Qed.

(** ** Unfolding equations and the output discipline *)

Section Equations.

Variable H : Helpers.
Variables (row : string) (columnNames : gmap string Z) (alias : string).

Lemma jsonWhereClause_AndExpr (l r : Expr) :
  jsonWhereClause H row columnNames alias (AndExpr l r) =
  (let* (leftVal, lerr) := evalOperand H row columnNames alias l in
   match lerr with
   | Some e => ret (false, Some e)
   | None =>
       let* (rightVal, rerr) := evalOperand H row columnNames alias r in
       match rerr with
       | Some e => ret (false, Some e)
       | None => ret (rightVal && leftVal, None)
       end
   end).
Proof. reflexivity. Qed.

Lemma jsonWhereClause_OrExpr (l r : Expr) :
  jsonWhereClause H row columnNames alias (OrExpr l r) =
  (let* (leftVal, _) := evalOperand H row columnNames alias l in
   let* (rightVal, _) := evalOperand H row columnNames alias r in
   ret (rightVal || leftVal, None)).
Proof. reflexivity. Qed.

Lemma jsonWhereClause_RangeCond (op : string) (l f t : Expr) :
  jsonWhereClause H row columnNames alias (RangeCond op l f t) =
  rangeCondCase op
    (jsonEvaluateBetween (RangeCond op l f t) alias row columnNames).
Proof. reflexivity. Qed.

(** A comparison writes nothing, and its result depends neither on the
    output written so far, nor on the alias, nor on the column-name map. *)
Lemma jsonWhereClause_comparison (op : string) (l r : Expr) :
  exists res : Outcome, forall cols' alias' out,
    jsonWhereClause H row cols' alias' (ComparisonExpr op l r) out = (res, out).
Proof.
  cbn [jsonWhereClause prints_false].
  destruct (match r with
            | SQLVal ty val => evaluateParserType H ty val
            | _ => (None, None)
            end) as [operand [e|]].
  - eexists; intros; reflexivity.
  - destruct l; eexists; intros; reflexivity.
Qed.

(** An operand of AND or OR writes nothing; an operand that is no comparison
    counts as [false] without an error. *)
Lemma evalOperand_pure (e : Expr) :
  exists res : Outcome,
    (forall out, evalOperand H row columnNames alias e out = (res, out)) /\
    (is_comparison e = false -> res = (false, None)).
Proof.
  destruct e; cbn [evalOperand is_comparison];
    try (exists (false, None); split; [intros; reflexivity | reflexivity]).
  destruct (jsonWhereClause_comparison Operator e1 e2) as [res Hres].
  exists res. split; [intros; apply Hres | discriminate].
Qed.

(** The delegate writes one line and answers [false]. *)
Lemma jsonEvaluateBetween_eq (betweenExpr : Expr) (out : Stdout) :
  jsonEvaluateBetween betweenExpr alias row columnNames out =
  ((false, None),
   out ++ [[PStr between_banner; PStr alias; PStr row; PMap columnNames]]).
Proof. reflexivity. Qed.

(** The result of an evaluation and the lines it writes are fixed by the
    record, the map, the alias and the node. *)
Lemma jsonWhereClause_output (N : Expr) :
  exists (res : Outcome) (w : Stdout), forall out,
    jsonWhereClause H row columnNames alias N out = (res, out ++ w).
Proof.
  destruct N as [l r|l r|e|e|op l r|op l f t|op e|ty v| |b|n qn|n es|k];
    try (exists (true, None), []; intros out; rewrite app_nil_r; reflexivity).
  - (* AND *)
    destruct (evalOperand_pure l) as [[lv le] [Hl _]].
    destruct (evalOperand_pure r) as [[rv re] [Hr _]].
    rewrite jsonWhereClause_AndExpr. unfold bind.
    destruct le as [e|].
    + exists (false, Some e), []. intros out.
      rewrite Hl, app_nil_r. reflexivity.
    + destruct re as [e|].
      * exists (false, Some e), []. intros out.
        rewrite Hl, Hr, app_nil_r. reflexivity.
      * exists (rv && lv, None), []. intros out.
        rewrite Hl, Hr, app_nil_r. reflexivity.
  - (* OR *)
    destruct (evalOperand_pure l) as [[lv le] [Hl _]].
    destruct (evalOperand_pure r) as [[rv re] [Hr _]].
    rewrite jsonWhereClause_OrExpr. unfold bind.
    exists (rv || lv, None), []. intros out.
    rewrite Hl, Hr, app_nil_r. reflexivity.
  - (* comparison *)
    destruct (jsonWhereClause_comparison op l r) as [res Hres].
    exists res, []. intros out. rewrite Hres, app_nil_r. reflexivity.
  - (* range condition *)
    rewrite jsonWhereClause_RangeCond. unfold rangeCondCase, bind.
    destruct (negb (op =? "between")%string
              && negb (op =? "not between")%string).
    + exists (false, Some ErrUnsupportedSQLOperation), []. intros out.
      rewrite app_nil_r. reflexivity.
    + destruct (op =? "not between")%string; eexists; eexists; intros out;
        rewrite jsonEvaluateBetween_eq; reflexivity.
  - (* boolean literal *)
    exists (b, None), []. intros out. rewrite app_nil_r.
    destruct b; reflexivity.
Qed.

End Equations.

(** ** Node kinds without a branch *)

(** The clause [NOT (status = 'ok')] is a node of a kind outside the
    dispatched ones, and on the record [{"status":"ok"}] the evaluator answers
    [(true, nil)], not an unsupported-operation error. *)
Example unsupported_kind_scenario :
  let N := NotExpr (ComparisonExpr "=" (ColName "status" "")
                      (SQLVal StrVal "ok")) in
  let res := fst (jsonWhereClause Sample.helpers Sample.row_status ∅
                    "s3object" N []) in
  dispatched N = false /\
  res = (true, None) /\
  snd res <> Some ErrUnsupportedSQLOperation.
Proof. repeat split; discriminate. Qed.

(** C1 (the code at the failing input): for every record and every node
    whose kind is outside the literal [false], the IS expression, the range
    condition, the comparison, AND and OR, the type switch has no branch,
    control reaches the final [return true, nil], and [jsonWhereClause]
    returns [(true, nil)]: the record is admitted and no
    [ErrUnsupportedSQLOperation] is returned, unlike in the branch of the
    range condition for an operator it does not know. *)
Theorem undispatched_kind_passes (H : Helpers) (row : string)
    (columnNames : gmap string Z) (alias : string) (N : Expr) (out : Stdout) :
  dispatched N = false ->
  jsonWhereClause H row columnNames alias N out = ((true, None), out).
Proof.
  destruct N as [l r|l r|e|e|op l r|op l f t|op e|ty v| |b|n qn|n es|k];
    cbn [dispatched]; intros Hk; try discriminate Hk; try reflexivity.
  destruct b; [reflexivity | discriminate Hk].
Qed.

Lemma undispatched_kind_passes_witness :
  dispatched (ParenExpr (BoolVal false)) = false /\
  jsonWhereClause Sample.helpers Sample.row_age ∅ "s3object"
    (ParenExpr (BoolVal false)) [] = ((true, None), []).
Proof.
  split; [reflexivity | apply undispatched_kind_passes; reflexivity].
Defined.

(** ** The null test *)

(** C5 (the code at the failing input): for every record, a null-test
    node ([IS NULL], [IS NOT NULL]) evaluates to [(true, nil)] and writes
    nothing: the branch of the IS expression is empty (its body is the
    comment [To be Implemented]) and control reaches the final
    [return true, nil].  No error is returned. *)
Theorem IsExpr_passes (H : Helpers) (row : string)
    (columnNames : gmap string Z) (alias : string) (op : string) (e : Expr)
    (out : Stdout) :
  jsonWhereClause H row columnNames alias (IsExpr op e) out =
  ((true, None), out).
Proof. reflexivity. Qed.

(** On the record [{"status":"ok"}] the clause [status IS NULL] evaluates to
    [(true, nil)]. *)
Example IsExpr_scenario :
  let res := fst (jsonWhereClause Sample.helpers Sample.row_status ∅
                    "s3object" (IsExpr "is null" (ColName "status" "")) []) in
  res = (true, None) /\ snd res <> Some ErrUnsupportedSQLOperation.
Proof. split; [reflexivity | discriminate]. Qed.

(** ** Comparisons with an unsupported side *)

(** In [lower(name) = 'bob'] the left-hand side is a function call, not a
    column, and on the record [{"age":20,"name":"alice"}] the evaluator
    answers [(true, nil)]. *)
Example comparison_scenario :
  let N := ComparisonExpr "=" (FuncExpr "lower" [ColName "name" ""])
             (SQLVal StrVal "bob") in
  let res := fst (jsonWhereClause Sample.helpers Sample.row_age ∅
                    "s3object" N []) in
  is_ColName (FuncExpr "lower" [ColName "name" ""]) = false /\
  res = (true, None) /\
  snd res <> Some ErrUnsupportedSQLOperation.
Proof. repeat split; discriminate. Qed.

(** C6 (the code at the failing input): for every record and every
    binary-comparison node, no [ErrUnsupportedSQLOperation] is raised for an
    unsupported side (the cases of the function call are commented out in
    both switches).
    (1) If the left-hand side is not a simple column reference,
    [jsonWhereClause] returns the coercion error of the right-hand literal
    when there is one, and [(true, nil)] otherwise; (2) if the left-hand side
    is a column reference and the right-hand side is not a literal, it calls
    [evaluateOperator] on the column's value, the operator and the nil
    operand, and returns that call's result.  In both cases nothing is
    written. *)
Theorem comparison_unsupported_sides (H : Helpers) (row : string)
    (columnNames : gmap string Z) (alias : string) (op : string)
    (l r : Expr) (out : Stdout) :
  (is_ColName l = false ->
   jsonWhereClause H row columnNames alias (ComparisonExpr op l r) out =
   (match r with
    | SQLVal ty val =>
        match snd (evaluateParserType H ty val) with
        | Some e => (false, Some e)
        | None => (true, None)
        end
    | _ => (true, None)
    end, out)) /\
  (is_SQLVal r = false -> forall name qual, l = ColName name qual ->
   jsonWhereClause H row columnNames alias (ComparisonExpr op l r) out =
   (evaluateOperator H (jsonValue H (CompliantName H name) row) op None,
    out)).
Proof.
  split.
  - intros Hl. cbn [jsonWhereClause prints_false].
    destruct r; try (destruct l; (discriminate Hl || reflexivity)).
    cbn [snd]. destruct (evaluateParserType H Type_ Val) as [operand [e|]];
      cbn [snd]; [reflexivity|].
    destruct l; (discriminate Hl || reflexivity).
  - intros Hr name qual ->. cbn [jsonWhereClause prints_false].
    destruct r; (discriminate Hr || reflexivity).
Qed.

Lemma comparison_unsupported_sides_witness :
  (is_ColName (FuncExpr "lower" [ColName "name" ""]) = false /\
   jsonWhereClause Sample.helpers Sample.row_age ∅ "s3object"
     (ComparisonExpr "=" (FuncExpr "lower" [ColName "name" ""])
        (SQLVal HexVal "00")) [] =
   ((false, Some (ErrOther "unsupported literal")), [])) /\
  (is_SQLVal (ColName "age" "") = false /\
   jsonWhereClause Sample.helpers Sample.row_age ∅ "s3object"
     (ComparisonExpr "!=" (ColName "name" "") (ColName "age" "")) [] =
   ((true, None), [])).
Proof.
  split; (split; [reflexivity|]).
  - apply (proj1 (comparison_unsupported_sides Sample.helpers Sample.row_age
                    ∅ "s3object" "=" (FuncExpr "lower" [ColName "name" ""])
                    (SQLVal HexVal "00") [])).
    reflexivity.
  - apply (proj2 (comparison_unsupported_sides Sample.helpers Sample.row_age
                    ∅ "s3object" "!=" (ColName "name" "") (ColName "age" "")
                    []) eq_refl "name" "" eq_refl).
Defined.

(** ** Range conditions *)

(** C7: a range-condition node is handed to [rangeCondCase] with the call
    of [jsonEvaluateBetween] as the delegate.  For whatever the delegate
    returns: an operator other than [between] and [not between] fails with
    [ErrUnsupportedSQLOperation] without running the delegate; [between]
    returns the delegate's boolean unchanged; [not between] returns its
    negation; and an error of the delegate is returned unchanged in both
    cases. *)
Theorem rangeCond_dispatch (H : Helpers) (row : string)
    (columnNames : gmap string Z) (alias : string) (op : string)
    (l f t : Expr) (delegate : IO Outcome) (out out' : Stdout)
    (b : bool) (err : option error) :
  delegate out = ((b, err), out') ->
  jsonWhereClause H row columnNames alias (RangeCond op l f t) =
    rangeCondCase op
      (jsonEvaluateBetween (RangeCond op l f t) alias row columnNames) /\
  (op <> "between" -> op <> "not between" ->
   jsonWhereClause H row columnNames alias (RangeCond op l f t) out =
   ((false, Some ErrUnsupportedSQLOperation), out) /\
   rangeCondCase op delegate out =
   ((false, Some ErrUnsupportedSQLOperation), out)) /\
  (op = "between" ->
   rangeCondCase op delegate out =
   (match err with Some e => (false, Some e) | None => (b, None) end, out')) /\
  (op = "not between" ->
   rangeCondCase op delegate out =
   (match err with Some e => (false, Some e) | None => (negb b, None) end,
    out')).
Proof.
  intros Hd. split; [reflexivity|]. split; [|split].
  - intros Hb Hnb.
    apply String.eqb_neq in Hb. apply String.eqb_neq in Hnb.
    rewrite jsonWhereClause_RangeCond. unfold rangeCondCase.
    rewrite Hb, Hnb. split; reflexivity.
  - intros ->. unfold rangeCondCase, bind. cbn. rewrite Hd.
    destruct err; reflexivity.
  - intros ->. unfold rangeCondCase, bind. cbn. rewrite Hd.
    destruct err; reflexivity.
Qed.

Lemma rangeCond_dispatch_witness :
  rangeCondCase "like"
    (fun out => ((true, Some (ErrOther "decode")), out ++ [[PStr "x"]])) [] =
  ((false, Some ErrUnsupportedSQLOperation), []) /\
  rangeCondCase "not between"
    (fun out => ((true, Some (ErrOther "decode")), out ++ [[PStr "x"]])) [] =
  ((false, Some (ErrOther "decode")), [[PStr "x"]]) /\
  rangeCondCase "not between"
    (jsonEvaluateBetween
       (RangeCond "not between" (ColName "age" "") (SQLVal IntVal "18")
          (SQLVal IntVal "25")) "s3object" Sample.row_age ∅) [] =
  ((true, None),
   [[PStr between_banner; PStr "s3object";
     PStr Sample.row_age; PMap ∅]]).
Proof.
  split; [|split].
  - refine (proj2 (proj1 (proj2 (rangeCond_dispatch Sample.helpers
              Sample.row_age ∅ "s3object" "like" NullVal NullVal NullVal _ []
              _ _ _ eq_refl)) _ _)); discriminate.
  - exact (proj2 (proj2 (proj2 (rangeCond_dispatch Sample.helpers
              Sample.row_age ∅ "s3object" "not between" NullVal NullVal
              NullVal _ [] _ _ _ eq_refl))) eq_refl).
  - exact (proj2 (proj2 (proj2 (rangeCond_dispatch Sample.helpers
              Sample.row_age ∅ "s3object" "not between" NullVal NullVal
              NullVal _ [] _ _ _ eq_refl))) eq_refl).
Defined.

(** C2 (the code at the failing input): whatever the record, the column and
    the bounds, [col BETWEEN lo AND hi] evaluates to [(false, nil)] and
    [col NOT BETWEEN lo AND hi] to [(true, nil)]: [jsonEvaluateBetween]
    returns [false, nil] without reading its arguments.  On the record
    [{"age":20,...}], [age BETWEEN 18 AND 25] is therefore false and
    [age NOT BETWEEN 18 AND 25] true. *)
Theorem between_ignores_bounds (H : Helpers) (row : string)
    (columnNames : gmap string Z) (alias : string) (l f t : Expr)
    (out : Stdout) :
  fst (jsonWhereClause H row columnNames alias (RangeCond "between" l f t)
         out) = (false, None) /\
  fst (jsonWhereClause H row columnNames alias
         (RangeCond "not between" l f t) out) = (true, None).
Proof. split; reflexivity. Qed.

Example between_scenario :
  fst (jsonWhereClause Sample.helpers Sample.row_age ∅ "s3object"
         (RangeCond "between" (ColName "age" "") (SQLVal IntVal "18")
            (SQLVal IntVal "25")) []) = (false, None).
Proof. reflexivity. Qed.

(** ** The value extractor *)

(** C8: [jsonValue] is a total function from a path and a record to a
    string, with no error component; for a path that resolves to nothing in
    the record (the resolver's result does not exist) it returns the empty
    string. *)
Theorem jsonValue_missing_path (H : Helpers) (input row : string) :
  gjson.Exists (gjson_Get H row input) = false ->
  jsonValue H input row = "".
Proof.
  unfold jsonValue, gjson.Exists, gjson.String.
  destruct (gjson.Type_of (gjson_Get H row input)); intros He;
    (discriminate He || reflexivity).
Qed.

Lemma jsonValue_missing_path_witness :
  gjson.Exists (gjson_Get Sample.helpers Sample.row_status "age") = false /\
  jsonValue Sample.helpers "age" Sample.row_status = "".
Proof.
  split; [reflexivity | apply jsonValue_missing_path; reflexivity].
Defined.

(** ** Conjunction and disjunction *)

(** C3 (the code at the failing input): an operand of AND that is not
    itself a comparison (a nested AND, an OR, a range condition, ...) is not
    evaluated; its value is taken to be [false], so the conjunction's boolean
    is [false] whatever the operand would evaluate to. *)
Theorem AndExpr_skips_nested_operands (H : Helpers) (row : string)
    (columnNames : gmap string Z) (alias : string) (l r : Expr)
    (out : Stdout) :
  is_comparison l = false \/ is_comparison r = false ->
  fst (fst (jsonWhereClause H row columnNames alias (AndExpr l r) out))
  = false.
Proof.
  intros Hk. rewrite jsonWhereClause_AndExpr. unfold bind.
  destruct (evalOperand_pure H row columnNames alias l) as [[lv le] [Hl Hl']].
  destruct (evalOperand_pure H row columnNames alias r) as [[rv re] [Hr Hr']].
  rewrite Hl. destruct le as [e|]; [reflexivity|].
  rewrite Hr. destruct re as [e|]; [reflexivity|]. cbn [fst ret].
  destruct Hk as [Hk|Hk].
  - specialize (Hl' Hk). injection Hl' as ->. apply andb_false_r.
  - specialize (Hr' Hk). injection Hr' as ->. reflexivity.
Qed.

(** On [{"age":20,"name":"alice"}] the three comparisons [age = 20],
    [name = 'alice'] and [name != 'bob'] hold, and
    [(age = 20 AND name = 'alice') AND name != 'bob'] is false. *)
Lemma AndExpr_skips_nested_operands_witness :
  let c1 := ComparisonExpr "=" (ColName "age" "") (SQLVal IntVal "20") in
  let c2 := ComparisonExpr "=" (ColName "name" "") (SQLVal StrVal "alice") in
  let c3 := ComparisonExpr "!=" (ColName "name" "") (SQLVal StrVal "bob") in
  let eval := fun N => fst (jsonWhereClause Sample.helpers Sample.row_age ∅
                              "s3object" N []) in
  eval c1 = (true, None) /\ eval c2 = (true, None) /\ eval c3 = (true, None) /\
  eval (AndExpr c1 c2) = (true, None) /\
  fst (eval (AndExpr (AndExpr c1 c2) c3)) = false.
Proof.
  repeat (split; [reflexivity|]).
  apply AndExpr_skips_nested_operands. left. reflexivity.
Defined.

(** C4 (the code at the failing input): OR never returns an error.  When
    an operand is a comparison whose evaluation fails, the error is
    discarded and the boolean returned beside it is used: the result is
    [(rightVal || leftVal, nil)]. *)
Theorem OrExpr_discards_errors (H : Helpers) (row : string)
    (columnNames : gmap string Z) (alias : string) (l r : Expr)
    (out out1 out2 : Stdout) (lv rv : bool) (le re : option error) :
  evalOperand H row columnNames alias l out = ((lv, le), out1) ->
  evalOperand H row columnNames alias r out1 = ((rv, re), out2) ->
  jsonWhereClause H row columnNames alias (OrExpr l r) out =
  ((rv || lv, None), out2).
Proof.
  intros Hl Hr. rewrite jsonWhereClause_OrExpr. unfold bind.
  rewrite Hl, Hr. reflexivity.
Qed.

(** On [{"age":20,"name":"alice"}], the left operand of
    [name = X'00' OR name = 'bob'] fails in the coercion of its literal and
    the right operand is false; the disjunction is [(false, nil)]. *)
Lemma OrExpr_discards_errors_witness :
  let c1 := ComparisonExpr "=" (ColName "name" "") (SQLVal HexVal "00") in
  let c2 := ComparisonExpr "=" (ColName "name" "") (SQLVal StrVal "bob") in
  let run := jsonWhereClause Sample.helpers Sample.row_age ∅ "s3object" in
  run c1 [] = ((false, Some (ErrOther "unsupported literal")), []) /\
  run c2 [] = ((false, None), []) /\
  run (OrExpr c1 c2) [] = ((false, None), []).
Proof.
  split; [reflexivity | split; [reflexivity|]].
  apply (OrExpr_discards_errors Sample.helpers Sample.row_age ∅ "s3object"
           _ _ [] [] [] false false
           (Some (ErrOther "unsupported literal")) None);
    reflexivity.
Defined.

(** X1: OR returns the nil error for every pair of operands. *)
Lemma OrExpr_error_is_nil (H : Helpers) (row : string)
    (columnNames : gmap string Z) (alias : string) (l r : Expr)
    (out : Stdout) :
  snd (fst (jsonWhereClause H row columnNames alias (OrExpr l r) out)) = None.
Proof.
  destruct (evalOperand_pure H row columnNames alias l) as [[lv le] [Hl _]].
  destruct (evalOperand_pure H row columnNames alias r) as [[rv re] [Hr _]].
  rewrite jsonWhereClause_OrExpr. unfold bind. rewrite Hl, Hr. reflexivity.
Qed.

(** X2: OR short-circuit on the value.  When an operand of OR is a
    comparison and evaluates to [true], with or without an error beside it,
    the disjunction is [(true, nil)] whatever the other operand is.  (An
    operand that is no comparison is never evaluated and counts as
    [false].) *)
Lemma OrExpr_true_operand (H : Helpers) (row : string)
    (columnNames : gmap string Z) (alias : string) (l r : Expr)
    (out : Stdout) :
  (is_comparison l = true /\
   fst (fst (jsonWhereClause H row columnNames alias l out)) = true) \/
  (is_comparison r = true /\
   fst (fst (jsonWhereClause H row columnNames alias r out)) = true) ->
  fst (jsonWhereClause H row columnNames alias (OrExpr l r) out)
  = (true, None).
Proof.
  intros Hor. rewrite jsonWhereClause_OrExpr. unfold bind.
  destruct (evalOperand_pure H row columnNames alias l) as [[lv le] [Hl _]].
  destruct (evalOperand_pure H row columnNames alias r) as [[rv re] [Hr _]].
  rewrite Hl, Hr. cbn [fst ret].
  destruct Hor as [[Hc Ht]|[Hc Ht]].
  - assert (He : evalOperand H row columnNames alias l
                 = jsonWhereClause H row columnNames alias l)
      by (destruct l; try discriminate Hc; reflexivity).
    rewrite <- He, Hl in Ht. cbn [fst] in Ht. subst lv.
    rewrite orb_true_r. reflexivity.
  - assert (He : evalOperand H row columnNames alias r
                 = jsonWhereClause H row columnNames alias r)
      by (destruct r; try discriminate Hc; reflexivity).
    rewrite <- He, Hr in Ht. cbn [fst] in Ht. subst rv. reflexivity.
Qed.

(** On [{"age":20,"name":"alice"}], [age = 20] holds and the literal of
    [name = X'00'] is rejected: the disjunction of the two is [(true, nil)]
    in either order. *)
Lemma OrExpr_true_operand_witness :
  let c1 := ComparisonExpr "=" (ColName "age" "") (SQLVal IntVal "20") in
  let c2 := ComparisonExpr "=" (ColName "name" "") (SQLVal HexVal "00") in
  let run := jsonWhereClause Sample.helpers Sample.row_age ∅ "s3object" in
  run c1 [] = ((true, None), []) /\
  snd (fst (run c2 [])) = Some (ErrOther "unsupported literal") /\
  fst (run (OrExpr c1 c2) []) = (true, None) /\
  fst (run (OrExpr c2 c1) []) = (true, None).
Proof.
  split; [reflexivity | split; [reflexivity | split]].
  - apply OrExpr_true_operand. left. split; reflexivity.
  - apply OrExpr_true_operand. right. split; reflexivity.
Defined.

(** ** Reading a record *)

Section JsonRead.

Context {D : Type} `{Decoder D}.

(** X3: a document that decodes to something other than a JSON object ends
    the call in a panic. *)
Lemma jsonRead_not_a_map (r : JSONInput D) (m : Any) (dec' : D) :
  More (reader r) = true ->
  Decode (reader r) = (inl m, dec') ->
  (forall f, m <> AnyMap f) ->
  jsonRead r = (Panic, dec').
Proof.
  intros Hm Hd Hk. unfold jsonRead. rewrite Hm, Hd.
  destruct m; try reflexivity. destruct (Hk m eq_refl).
Qed.

(** C10 (amended): [jsonRead] has no error result.  When the decoder
    reports no more documents, or the first decode yields end-of-stream, it
    returns nil; when the first document decodes to a JSON object, it returns
    that object as a string-keyed map, and when it decodes to any other JSON
    value the type assertion panics; when the first decode fails with an
    error other than end-of-stream, the call does not return (it ends in
    [log.Fatal]).  So a nil result carries no error: it is what the caller
    gets both when [More] is false and when the decode yields [io.EOF], and
    in no other case. *)
Theorem jsonRead_exits (r : JSONInput D) :
  (More (reader r) = false -> jsonRead r = (Return None, reader r)) /\
  (forall dec', More (reader r) = true ->
     Decode (reader r) = (inr io_EOF, dec') ->
     jsonRead r = (Return None, dec')) /\
  (forall f dec', More (reader r) = true ->
     Decode (reader r) = (inl (AnyMap f), dec') ->
     jsonRead r = (Return (Some f), dec')) /\
  (forall m dec', More (reader r) = true ->
     Decode (reader r) = (inl m, dec') -> (forall f, m <> AnyMap f) ->
     jsonRead r = (Panic, dec')) /\
  (forall e dec', More (reader r) = true ->
     Decode (reader r) = (inr e, dec') -> e <> io_EOF ->
     jsonRead r = (LogFatal e, dec')) /\
  (fst (jsonRead r) = Return None ->
   More (reader r) = false \/ fst (Decode (reader r)) = inr io_EOF).
Proof.
  unfold jsonRead. repeat split.
  - intros ->. reflexivity.
  - intros dec' -> ->. reflexivity.
  - intros f dec' -> ->. reflexivity.
  - intros m dec' -> -> Hm. destruct m; try reflexivity.
    destruct (Hm _ eq_refl).
  - intros e dec' -> -> He. destruct (decide (e = io_EOF)); [contradiction|].
    reflexivity.
  - destruct (More (reader r)); [|left; reflexivity].
    destruct (Decode (reader r)) as [[m|e] dec']; cbn [fst].
    + destruct m; discriminate.
    + destruct (decide (e = io_EOF)) as [->|]; [right; reflexivity|].
      discriminate.
Qed.

End JsonRead.

Lemma jsonRead_not_a_map_witness :
  jsonRead (mkJSONInput [inl AnyNil : Any + error]) = (Panic, []).
Proof.
  apply (jsonRead_not_a_map (mkJSONInput [inl AnyNil]) AnyNil []);
    [reflexivity | reflexivity | discriminate].
Defined.

(** C10, as stated, fails: a stream whose first document is the array
    [[1]] is neither at its end nor malformed, and [jsonRead] does not return
    the document as a map: the type assertion panics. *)
Lemma jsonRead_counterexample :
  let stream : list (Any + error) := [inl (AnySlice [AnyFloat64 "1"])] in
  More stream = true /\
  jsonRead (mkJSONInput stream) = (Panic, []) /\
  (forall f, fst (jsonRead (mkJSONInput stream)) <> Return (Some f)).
Proof. repeat split; intros; discriminate. Qed.

Lemma jsonRead_exits_witness :
  let doc : gmap string Any := {[ "age" := AnyFloat64 "20" ]} in
  jsonRead (mkJSONInput ([] : list (Any + error))) = (Return None, []) /\
  jsonRead (mkJSONInput [inl (AnyMap doc); inr (ErrOther "syntax")]) =
    (Return (Some doc), [inr (ErrOther "syntax")]) /\
  jsonRead (mkJSONInput [inl (AnyString "x") : Any + error]) = (Panic, []) /\
  jsonRead (mkJSONInput [inr (ErrOther "syntax") : Any + error]) =
    (LogFatal (ErrOther "syntax"), []).
Proof.
  split; [|split; [|split]].
  - apply (proj1 (jsonRead_exits (mkJSONInput []))). reflexivity.
  - apply (proj1 (proj2 (proj2 (jsonRead_exits (mkJSONInput _)))));
      reflexivity.
  - apply (proj1 (proj2 (proj2 (proj2 (jsonRead_exits (mkJSONInput _)))))
             (AnyString "x")); [reflexivity | reflexivity | discriminate].
  - apply (proj1 (proj2 (proj2 (proj2 (proj2
             (jsonRead_exits (mkJSONInput _)))))));
      [reflexivity | reflexivity | discriminate].
Defined.

(** * Further properties of the evaluator *)

Section Operands.

Variable H : Helpers.
Variable row : string.

Lemma evalOperand_comparison (columnNames : gmap string Z) (alias : string)
    (e : Expr) :
  is_comparison e = true ->
  evalOperand H row columnNames alias e =
  jsonWhereClause H row columnNames alias e.
Proof. destruct e; cbn [is_comparison]; intros He; (discriminate He || reflexivity). Qed.

(** The value of an operand of AND or OR depends on the record and the
    node only. *)
Lemma evalOperand_result (e : Expr) :
  exists res : Outcome, forall columnNames alias out,
    evalOperand H row columnNames alias e out = (res, out).
Proof.
  destruct e; cbn [evalOperand];
    try (exists (false, None); intros; reflexivity).
  destruct (jsonWhereClause_comparison H row Operator e1 e2) as [res Hres].
  exists res. intros. apply Hres.
Qed.

(** The value of a node depends on the record and the node only. *)
Lemma jsonWhereClause_result (N : Expr) :
  exists res : Outcome, forall columnNames alias out,
    fst (jsonWhereClause H row columnNames alias N out) = res.
Proof.
  destruct N as [l r|l r|e|e|op l r|op l f t|op e|ty v| |b|n qn|n es|k];
    try (exists (true, None); intros; reflexivity).
  - destruct (evalOperand_result l) as [[lv le] Hl].
    destruct (evalOperand_result r) as [[rv re] Hr].
    exists (match le with
            | Some e => (false, Some e)
            | None => match re with
                      | Some e => (false, Some e)
                      | None => (rv && lv, None)
                      end
            end).
    intros. rewrite jsonWhereClause_AndExpr. unfold bind. rewrite Hl.
    destruct le; [reflexivity|]. rewrite Hr. destruct re; reflexivity.
  - destruct (evalOperand_result l) as [[lv le] Hl].
    destruct (evalOperand_result r) as [[rv re] Hr].
    exists (rv || lv, None).
    intros. rewrite jsonWhereClause_OrExpr. unfold bind. rewrite Hl, Hr.
    reflexivity.
  - destruct (jsonWhereClause_comparison H row op l r) as [res Hres].
    exists res. intros. rewrite Hres. reflexivity.
  - exists (if negb (op =? "between")%string
               && negb (op =? "not between")%string
            then (false, Some ErrUnsupportedSQLOperation)
            else if (op =? "not between")%string then (true, None)
                 else (false, None)).
    intros. rewrite jsonWhereClause_RangeCond. unfold rangeCondCase, bind.
    destruct (negb (op =? "between")%string
              && negb (op =? "not between")%string); [reflexivity|].
    destruct (op =? "not between")%string; reflexivity.
  - exists (b, None). intros. destruct b; reflexivity.
Qed.

End Operands.

(** X4: AND over two comparisons.  The left comparison is evaluated first;
    its error, if any, is the result, with the boolean [false].  Otherwise
    the right comparison is evaluated, and its error, if any, is the result.
    With no error the result is the conjunction of the two booleans. *)
Theorem AndExpr_of_comparisons (H : Helpers) (row : string)
    (columnNames : gmap string Z) (alias : string) (l r : Expr)
    (out : Stdout) (lv rv : bool) (le re : option error) :
  is_comparison l = true -> is_comparison r = true ->
  fst (jsonWhereClause H row columnNames alias l out) = (lv, le) ->
  fst (jsonWhereClause H row columnNames alias r out) = (rv, re) ->
  jsonWhereClause H row columnNames alias (AndExpr l r) out =
  (match le with
   | Some e => (false, Some e)
   | None => match re with
             | Some e => (false, Some e)
             | None => (rv && lv, None)
             end
   end, out).
Proof.
  intros Hl Hr Hlv Hrv. rewrite jsonWhereClause_AndExpr. unfold bind.
  destruct (evalOperand_result H row l) as [resl Hel].
  destruct (evalOperand_result H row r) as [resr Her].
  rewrite Hel.
  rewrite <- (evalOperand_comparison H row columnNames alias l Hl), Hel in Hlv.
  rewrite <- (evalOperand_comparison H row columnNames alias r Hr), Her in Hrv.
  cbn [fst] in Hlv, Hrv. subst resl resr.
  destruct le; [reflexivity|]. rewrite Her. destruct re; reflexivity.
Qed.

(** On [{"age":20,"name":"alice"}]: [age = 20 AND name = 'alice'] holds,
    [age = 20 AND name = 'bob'] does not, and a literal that is rejected
    makes the conjunction fail with the literal's error. *)
Lemma AndExpr_of_comparisons_witness :
  let c1 := ComparisonExpr "=" (ColName "age" "") (SQLVal IntVal "20") in
  let c2 := ComparisonExpr "=" (ColName "name" "") (SQLVal StrVal "alice") in
  let c3 := ComparisonExpr "=" (ColName "name" "") (SQLVal StrVal "bob") in
  let c4 := ComparisonExpr "=" (ColName "name" "") (SQLVal HexVal "00") in
  let run := jsonWhereClause Sample.helpers Sample.row_age ∅ "s3object" in
  run (AndExpr c1 c2) [] = ((true, None), []) /\
  run (AndExpr c1 c3) [] = ((false, None), []) /\
  run (AndExpr c4 c2) [] =
    ((false, Some (ErrOther "unsupported literal")), []).
Proof.
  cbv zeta. split; [|split].
  - apply (AndExpr_of_comparisons _ _ _ _ _ _ _ true true None None);
      reflexivity.
  - apply (AndExpr_of_comparisons _ _ _ _ _ _ _ true false None None);
      reflexivity.
  - apply (AndExpr_of_comparisons _ _ _ _ _ _ _ false true
             (Some (ErrOther "unsupported literal")) None);
      reflexivity.
Defined.

(** X5: the column-name map and the alias take no part in the result: for
    a record and a node, every map, every alias and every state of the
    output give the same (boolean, error) pair. *)
Theorem jsonWhereClause_ignores_alias_and_columns (H : Helpers)
    (row : string) (columnNames columnNames' : gmap string Z)
    (alias alias' : string) (N : Expr) (out out' : Stdout) :
  fst (jsonWhereClause H row columnNames alias N out) =
  fst (jsonWhereClause H row columnNames' alias' N out').
Proof.
  destruct (jsonWhereClause_result H row N) as [res Hres].
  rewrite !Hres. reflexivity.
Qed.

(** X6: the only thing an evaluation writes is the line of
    [jsonEvaluateBetween]: a range condition with the operator [between] or
    [not between] appends one line, which holds the alias, the whole record
    and the column-name map; every other node, AND and OR over range
    conditions included, leaves the output as it was. *)
Theorem jsonWhereClause_stdout (H : Helpers) (row : string)
    (columnNames : gmap string Z) (alias : string) (N : Expr)
    (out : Stdout) :
  snd (jsonWhereClause H row columnNames alias N out) =
  if calls_between N
  then out ++ [[PStr between_banner; PStr alias; PStr row; PMap columnNames]]
  else out.
Proof.
  destruct N as [l r|l r|e|e|op l r|op l f t|op e|ty v| |b|n qn|n es|k];
    cbn [calls_between]; try reflexivity.
  - destruct (evalOperand_pure H row columnNames alias l) as [[lv le] [Hl _]].
    destruct (evalOperand_pure H row columnNames alias r) as [[rv re] [Hr _]].
    rewrite jsonWhereClause_AndExpr. unfold bind. rewrite Hl.
    destruct le; [reflexivity|]. rewrite Hr. destruct re; reflexivity.
  - destruct (evalOperand_pure H row columnNames alias l) as [[lv le] [Hl _]].
    destruct (evalOperand_pure H row columnNames alias r) as [[rv re] [Hr _]].
    rewrite jsonWhereClause_OrExpr. unfold bind. rewrite Hl, Hr. reflexivity.
  - destruct (jsonWhereClause_comparison H row op l r) as [res Hres].
    rewrite Hres. reflexivity.
  - rewrite jsonWhereClause_RangeCond. unfold rangeCondCase, bind.
    destruct (op =? "between")%string; destruct (op =? "not between")%string;
      reflexivity.
  - destruct b; reflexivity.
Qed.

(** X7: a comparison of a column that is missing from the record with a
    literal that coerces is the comparison of the empty string with the
    literal: [evaluateOperator] is called on the empty string. *)
Theorem comparison_missing_column (H : Helpers) (row : string)
    (columnNames : gmap string Z) (alias : string) (op name qual : string)
    (ty : ValType) (val : string) (operand : option (Operand H))
    (out : Stdout) :
  evaluateParserType H ty val = (operand, None) ->
  gjson.Exists (gjson_Get H row (CompliantName H name)) = false ->
  jsonWhereClause H row columnNames alias
    (ComparisonExpr op (ColName name qual) (SQLVal ty val)) out =
  (evaluateOperator H "" op operand, out).
Proof.
  intros Hp Hx. cbn [jsonWhereClause prints_false]. rewrite Hp.
  unfold jsonValue, gjson.String. unfold gjson.Exists in Hx.
  destruct (gjson.Type_of (gjson_Get H row (CompliantName H name)));
    (discriminate Hx || reflexivity).
Qed.

(** On [{"status":"ok"}] the column [age] is missing: [age = 'x'] is false
    and [age = ''] is true. *)
Lemma comparison_missing_column_witness :
  let run := jsonWhereClause Sample.helpers Sample.row_status ∅ "s3object" in
  run (ComparisonExpr "=" (ColName "age" "") (SQLVal StrVal "x")) [] =
    ((false, None), []) /\
  run (ComparisonExpr "=" (ColName "age" "") (SQLVal StrVal "")) [] =
    ((true, None), []).
Proof.
  split.
  - exact (comparison_missing_column Sample.helpers Sample.row_status ∅
             "s3object" "=" "age" "" StrVal "x" (Some "x") [] eq_refl eq_refl).
  - exact (comparison_missing_column Sample.helpers Sample.row_status ∅
             "s3object" "=" "age" "" StrVal "" (Some "") [] eq_refl eq_refl).
Defined.

(** X8: [jsonRead] returns a non-nil map exactly when the stream has a
    next document and that document decodes to a JSON object, and the map is
    that object; it ends in [log.Fatal] exactly when the decoding of the next
    document fails with an error other than end-of-stream.  The decoder is
    advanced by one [Decode] when the stream has a next document and is left
    alone otherwise. *)
Theorem jsonRead_inversion {D : Type} `{Decoder D} (r : JSONInput D) :
  (forall f, fst (jsonRead r) = Return (Some f) <->
             More (reader r) = true /\
             fst (Decode (reader r)) = inl (AnyMap f)) /\
  (forall e, fst (jsonRead r) = LogFatal e <->
             More (reader r) = true /\
             fst (Decode (reader r)) = inr e /\ e <> io_EOF) /\
  snd (jsonRead r) =
    (if More (reader r) then snd (Decode (reader r)) else reader r).
Proof.
  unfold jsonRead.
  destruct (More (reader r)).
  - destruct (Decode (reader r)) as [[m|e] dec']; cbn [fst snd].
    + split; [|split].
      * intros f. split.
        -- destruct m; intros Hm; try discriminate Hm.
           injection Hm as ->. split; reflexivity.
        -- intros [_ Hm]. injection Hm as ->. reflexivity.
      * intros e. split.
        -- destruct m; discriminate.
        -- intros (_ & Hm & _). discriminate Hm.
      * destruct m; reflexivity.
    + destruct (decide (e = io_EOF)) as [->|Hne]; cbn [fst snd].
      * split; [|split]; [| |reflexivity].
        -- intros f. split; [discriminate|]. intros [_ Hm]. discriminate Hm.
        -- intros e. split; [discriminate|].
           intros (_ & Hm & Hn). injection Hm as <-. contradiction.
      * split; [|split]; [| |reflexivity].
        -- intros f. split; [discriminate|]. intros [_ Hm]. discriminate Hm.
        -- intros e'. split.
           ++ intros Hm. injection Hm as <-. repeat split. exact Hne.
           ++ intros (_ & Hm & _). injection Hm as ->. reflexivity.
  - cbn [fst snd]. split; [|split]; [| |reflexivity].
    + intros f. split; [discriminate|]. intros [Hm _]. discriminate Hm.
    + intros e. split; [discriminate|]. intros (Hm & _). discriminate Hm.
Qed.

(** * Properties of the admin client's information calls *)

Section InfoCalls.

Import madmin.

Context {Response : Type} (t : Transport Response).
Context {T : Type} (Unmarshal : string -> option (list T) * option error).
Variables (path key value : string).

(** X9: whenever one of the information calls returns a non-nil error, the
    slice it returns beside it is nil. *)
Theorem getInfo_error_nil_result (trace : list (Event Response))
    (v : option (list T)) (e : error) :
  fst (getInfo t Unmarshal path key value trace) = Return (v, Some e) ->
  v = None.
Proof.
  unfold getInfo.
  destruct (executeMethod t "GET" _) as [resp [e0|]]; cbn [fst].
  - congruence.
  - destruct resp as [rp|]; [|discriminate].
    destruct (negb (StatusCode t rp =? StatusOK)%Z); cbn [fst]; [congruence|].
    destruct (ReadAll t rp) as [respBytes [e1|]]; cbn [fst]; [congruence|].
    destruct (Unmarshal respBytes) as [info [e2|]]; cbn [fst]; congruence.
Qed.


(** X11: of the calls written in the function's own body, on every path,
    the panic included: [executeMethod] is called once, first, with the
    method GET; the deferred [closeResponse] is called once, last, on what
    [executeMethod] returned, also when that is nil or came with an error;
    between the two [ioutil.ReadAll] is called at most once, and only on a
    response with status 200 that came without an error. *)
Theorem getInfo_trace (trace : list (Event Response)) :
  exists mid : list (Event Response),
    snd (getInfo t Unmarshal path key value trace) =
    trace ++ [Execute "GET" (request_of path key value)] ++ mid
          ++ [CloseResponse (fst (executeMethod t "GET" (request_of path key value)))] /\
    (mid = [] \/
     exists rp, mid = [ReadBody rp] /\
                executeMethod t "GET" (request_of path key value) = (Some rp, None) /\
                StatusCode t rp = StatusOK).
Proof.
  unfold getInfo. fold (request_of path key value).
  destruct (executeMethod t "GET" (request_of path key value)) as [resp [e0|]]; cbn [fst snd].
  - exists []. rewrite <- !app_assoc. split; [reflexivity | left; reflexivity].
  - destruct resp as [rp|].
    + destruct (StatusCode t rp =? StatusOK)%Z eqn:Hs; cbn [negb].
      * apply Z.eqb_eq in Hs. exists [ReadBody rp]. split.
        -- destruct (ReadAll t rp) as [respBytes [e1|]]; cbn [snd];
             [rewrite <- !app_assoc; reflexivity|].
           destruct (Unmarshal respBytes) as [info [e2|]]; cbn [snd];
             rewrite <- !app_assoc; reflexivity.
        -- right. exists rp. repeat split. exact Hs.
      * exists []. rewrite <- !app_assoc.
        split; [reflexivity | left; reflexivity].
    + exists []. rewrite <- !app_assoc.
      split; [reflexivity | left; reflexivity].
Qed.

(** X12: a call returns with a nil error exactly when the request got a
    response without an error, the status is 200, the body was read without
    an error and decoded without an error; the slice returned is the decoded
    one. *)
Theorem getInfo_nil_error_iff (trace : list (Event Response))
    (v : option (list T)) :
  fst (getInfo t Unmarshal path key value trace) = Return (v, None) <->
  exists rp respBytes,
    executeMethod t "GET" (request_of path key value) = (Some rp, None) /\
    StatusCode t rp = StatusOK /\
    ReadAll t rp = (respBytes, None) /\
    Unmarshal respBytes = (v, None).
Proof.
  unfold getInfo. fold (request_of path key value). split.
  - destruct (executeMethod t "GET" (request_of path key value)) as [resp [e0|]]; cbn [fst];
      [discriminate|].
    destruct resp as [rp|]; [|discriminate].
    destruct (StatusCode t rp =? StatusOK)%Z eqn:Hs; cbn [negb fst];
      [|discriminate].
    apply Z.eqb_eq in Hs.
    destruct (ReadAll t rp) as [respBytes [e1|]] eqn:Hr; cbn [fst];
      [discriminate|].
    destruct (Unmarshal respBytes) as [info [e2|]] eqn:Hu; cbn [fst];
      [discriminate|].
    intros Hv. injection Hv as ->. exists rp, respBytes. repeat split; auto.
  - intros (rp & respBytes & He & Hs & Hr & Hu).
    rewrite He. apply Z.eqb_eq in Hs. rewrite Hs. cbn [negb].
    rewrite Hr, Hu. reflexivity.
Qed.

(** X13: a call panics exactly when [executeMethod] returns neither a
    response nor an error: the status code is then read through a nil
    pointer. *)
Theorem getInfo_panics_iff (trace : list (Event Response)) :
  fst (getInfo t Unmarshal path key value trace) = Panic <->
  executeMethod t "GET" (request_of path key value) = (None, None).
Proof.
  unfold getInfo. fold (request_of path key value). split.
  - destruct (executeMethod t "GET" (request_of path key value)) as [resp [e0|]]; cbn [fst];
      [discriminate|].
    destruct resp as [rp|]; [|reflexivity].
    destruct (negb (StatusCode t rp =? StatusOK)%Z); cbn [fst];
      [discriminate|].
    destruct (ReadAll t rp) as [respBytes [e1|]]; cbn [fst]; [discriminate|].
    destruct (Unmarshal respBytes) as [info [e2|]]; discriminate.
  - intros ->. reflexivity.
Qed.

End InfoCalls.

(** The CPU call of the sample gets a 503 and the memory call fails in
    transport: both return a nil slice beside the error. *)
Lemma getInfo_error_nil_result_witness :
  fst (madmin.ServerCPULoadInfo madmin.sample_transport
         madmin.sample_Unmarshal []) =
    Return (None, Some (ErrOther "error response")) /\
  match fst (madmin.ServerMemUsageInfo madmin.sample_transport
               madmin.sample_Unmarshal []) with
  | Return (v, Some e) => v = None
  | _ => False
  end.
Proof.
  split; [reflexivity|]. change (@None (list Z) = None).
  apply (getInfo_error_nil_result madmin.sample_transport
           madmin.sample_Unmarshal "/v1/performance" "perfType" "mem" []
           None (ErrOther "connection refused")).
  reflexivity.
Defined.


Lemma getInfo_nil_error_iff_witness :
  fst (madmin.ServerDrivesPerfInfo madmin.sample_transport
         madmin.sample_Unmarshal []) = Return (Some [1%Z; 2%Z], None).
Proof.
  apply (proj2 (getInfo_nil_error_iff madmin.sample_transport
                  madmin.sample_Unmarshal "/v1/performance" "perfType"
                  "drive" [] (Some [1%Z; 2%Z]))).
  exists (200%Z, "[1,2]"), "[1,2]". repeat split.
Defined.

Lemma getInfo_panics_iff_witness :
  fst (madmin.ServerInfo madmin.sample_transport madmin.sample_Unmarshal [])
  = Panic.
Proof.
  apply (proj2 (getInfo_panics_iff madmin.sample_transport
                  madmin.sample_Unmarshal "/v1/info" "type" "server" [])).
  reflexivity.
Defined.

(** * Properties of the container entry point *)

Section EntryPoint.

Import entrypoint.

Variable fs : FileSystem.

Lemma skipped_false (var : string) :
  skipped var = false ->
  String.eqb var "minio" = false /\ String.eqb var "gateway" = false /\
  String.eqb var "server" = false.
Proof.
  unfold skipped. intros Hs.
  apply orb_false_elim in Hs as [Hs Hserver].
  apply orb_false_elim in Hs as [Hminio Hgateway]. auto.
Qed.

(** One turn of the loop on a word that does not reach the branch of the
    directories. *)
Lemma scan_step_no_directory (var : string) (rest : list string) (s : Scan) :
  skipped var || negb (is_dir fs var) = true ->
  scan fs (var :: rest) s =
  scan fs rest
    (mkScan (if String.eqb var "gateway" then "minio" else owner s)
       (echoed s ++ [echo_var var]) (actions s)).
Proof.
  intros Hv. cbn [scan owner echoed actions]. unfold echo_var.
  destruct (String.eqb_spec var "minio") as [->|Hminio]; [reflexivity|].
  destruct (String.eqb_spec var "gateway") as [->|Hgateway]; [reflexivity|].
  destruct (String.eqb_spec var "server") as [->|Hserver]; [reflexivity|].
  unfold skipped in Hv.
  apply String.eqb_neq in Hminio, Hgateway, Hserver.
  rewrite Hminio, Hgateway, Hserver in Hv. cbn [orb] in Hv.
  apply negb_true_iff in Hv. rewrite Hv. reflexivity.
Qed.

(** Words that do not reach the branch of the directories are stepped
    over: each is echoed, and [gateway] sets the owner to [minio]. *)
Lemma scan_app (pre rest : list string) (s : Scan) :
  no_directory fs pre = true ->
  scan fs (pre ++ rest) s =
  scan fs rest
    (mkScan (if has_gateway pre then "minio" else owner s)
       (echoed s ++ map echo_var pre) (actions s)).
Proof.
  revert s. induction pre as [|var pre IH]; intros s Hpre.
  - cbn [app has_gateway existsb map]. rewrite app_nil_r.
    destruct s; reflexivity.
  - cbn [no_directory forallb] in Hpre.
    apply andb_true_iff in Hpre as [Hvar Hpre].
    change ((var :: pre) ++ rest) with (var :: (pre ++ rest)).
    rewrite (scan_step_no_directory var (pre ++ rest) s Hvar).
    rewrite (IH _ Hpre). cbn [owner echoed actions map].
    rewrite <- app_assoc. cbn [app].
    change (has_gateway (var :: pre))
      with (String.eqb var "gateway" || has_gateway pre).
    destruct (String.eqb var "gateway"), (has_gateway pre); reflexivity.
Qed.

Lemma scan_no_directory (vars : list string) (s : Scan) :
  no_directory fs vars = true ->
  scan fs vars s =
  mkScan (if has_gateway vars then "minio" else owner s)
    (echoed s ++ map echo_var vars) (actions s).
Proof.
  intros Hv. rewrite <- (app_nil_r vars) at 1.
  rewrite (scan_app vars [] s Hv). reflexivity.
Qed.

(** The first word that is a directory ends the loop. *)
Lemma scan_first_directory (pre post : list string) (d : string) (s : Scan) :
  no_directory fs pre = true -> skipped d = false -> is_dir fs d = true ->
  scan fs (pre ++ d :: post) s =
  if is_dir fs (d +:+ "/.minio.sys")
  then mkScan (ls_owner fs (d +:+ "/.minio.sys"))
         (echoed s ++ map echo_var (pre ++ [d])) (actions s)
  else mkScan "minio" (echoed s ++ map echo_var (pre ++ [d]))
         (actions s ++ [Mkdir_p d; Chown_minio d]).
Proof.
  intros Hpre Hd Hdir. rewrite (scan_app pre (d :: post) s Hpre).
  apply skipped_false in Hd as (Hminio & Hgateway & Hserver).
  cbn [scan owner echoed actions]. rewrite Hminio, Hgateway, Hserver, Hdir.
  rewrite map_app, app_assoc. reflexivity.
Qed.

(** The loop takes no action, or it makes and hands to minio one directory
    of its words that holds no [.minio.sys], and the owner is then minio. *)
Lemma scan_actions (vars : list string) (s : Scan) :
  actions (scan fs vars s) = actions s \/
  exists d, In d vars /\ skipped d = false /\ is_dir fs d = true /\
            is_dir fs (d +:+ "/.minio.sys") = false /\
            actions (scan fs vars s) = actions s ++ [Mkdir_p d; Chown_minio d]
            /\ owner (scan fs vars s) = "minio".
Proof.
  revert s. induction vars as [|var rest IH]; intros s; [left; reflexivity|].
  destruct (skipped var || negb (is_dir fs var)) eqn:Hv.
  - rewrite (scan_step_no_directory var rest s Hv).
    destruct (IH (mkScan (if String.eqb var "gateway" then "minio"
                          else owner s)
                    (echoed s ++ [echo_var var]) (actions s)))
      as [Ha|(d & Hin & Hrest)]; [left; exact Ha|].
    right. exists d. split; [right; exact Hin | exact Hrest].
  - apply orb_false_elim in Hv as [Hs Hdir].
    apply negb_false_iff in Hdir.
    pose proof (skipped_false var Hs) as (Hminio & Hgateway & Hserver).
    cbn [scan owner echoed actions]. rewrite Hminio, Hgateway, Hserver, Hdir.
    destruct (is_dir fs (var +:+ "/.minio.sys")) eqn:Hsys;
      [left; reflexivity|].
    right. exists var. repeat split; auto. left; reflexivity.
Qed.

End EntryPoint.

(** X14: the first lines of the script put [minio] in front of the
    arguments or leave them alone; whenever the first argument is not empty
    the command then starts with [minio]; and doing it twice changes
    nothing more. *)
Theorem prepend_minio_head (args : list string) :
  (entrypoint.prepend_minio args = args \/
   entrypoint.prepend_minio args = "minio" :: args) /\
  (forall a rest, args = a :: rest -> a <> "" ->
     exists rest', entrypoint.prepend_minio args = "minio" :: rest') /\
  entrypoint.prepend_minio (entrypoint.prepend_minio args) =
  entrypoint.prepend_minio args.
Proof.
  unfold entrypoint.prepend_minio.
  destruct args as [|a rest]; cbn.
  - repeat split; [left; reflexivity | discriminate].
  - destruct (String.eqb_spec a "minio") as [->|Hminio]; cbn [negb].
    + repeat split; [left; reflexivity | eauto].
    + destruct (String.eqb_spec a "") as [->|Hempty]; cbn [negb].
      * repeat split; [left; reflexivity | ]. intros a rest' Ha Hne.
        injection Ha as <- _. contradiction.
      * repeat split; [right; reflexivity | eauto].
Qed.

Lemma plain_word_secrets_path (value : string) :
  entrypoint.plain_word value = true ->
  entrypoint.unquoted ("/run/secrets/" +:+ value)
  = Some ("/run/secrets/" +:+ value).
Proof.
  intros Hplain. unfold entrypoint.unquoted.
  change (entrypoint.plain_word ("/run/secrets/" +:+ value))
    with (entrypoint.plain_word value).
  rewrite Hplain. reflexivity.
Qed.

(** A value with a blank in it is outside the model: the shell splits it
    and [[ -f ... ]] is given more words than it was written with. *)
Example docker_secrets_env_blank :
  entrypoint.docker_secrets_env entrypoint.sample_fs
    {[ "MINIO_ACCESS_KEY_FILE" := "my access";
       "MINIO_SECRET_KEY_FILE" := "secret" ]} = None.
Proof. vm_compute. reflexivity. Qed.

(** X15: when the values of [MINIO_ACCESS_KEY_FILE] and
    [MINIO_SECRET_KEY_FILE] are plain words (no blank, no pattern character;
    unset or empty included), [docker_secrets_env] sets both keys or
    neither.  When both secret files are regular files, the access key and
    the secret key become the contents of the two files; otherwise the
    environment is left as it was.  No other variable is ever changed. *)
Theorem docker_secrets_env_both_or_neither (fs : entrypoint.FileSystem)
    (env : gmap string string) :
  entrypoint.plain_word (entrypoint.expand env "MINIO_ACCESS_KEY_FILE")
  = true ->
  entrypoint.plain_word (entrypoint.expand env "MINIO_SECRET_KEY_FILE")
  = true ->
  let ACCESS_KEY_FILE :=
    "/run/secrets/" +:+ entrypoint.expand env "MINIO_ACCESS_KEY_FILE" in
  let SECRET_KEY_FILE :=
    "/run/secrets/" +:+ entrypoint.expand env "MINIO_SECRET_KEY_FILE" in
  exists env' : gmap string string,
    entrypoint.docker_secrets_env fs env = Some env' /\
    (if entrypoint.is_file fs ACCESS_KEY_FILE
        && entrypoint.is_file fs SECRET_KEY_FILE
     then env' !! "MINIO_ACCESS_KEY"
          = Some (entrypoint.cat fs ACCESS_KEY_FILE)
          /\ env' !! "MINIO_SECRET_KEY"
             = Some (entrypoint.cat fs SECRET_KEY_FILE)
     else env' = env) /\
    (forall name, name <> "MINIO_ACCESS_KEY" -> name <> "MINIO_SECRET_KEY" ->
       env' !! name = env !! name).
Proof.
  intros Hpa Hps. cbv zeta. unfold entrypoint.docker_secrets_env.
  rewrite (plain_word_secrets_path _ Hpa), (plain_word_secrets_path _ Hps).
  eexists. split; [reflexivity|].
  destruct (entrypoint.is_file fs
              ("/run/secrets/"
               +:+ entrypoint.expand env "MINIO_ACCESS_KEY_FILE")) eqn:Ha;
    cbn [andb]; [|split; [reflexivity | intros; reflexivity]].
  destruct (entrypoint.is_file fs
              ("/run/secrets/"
               +:+ entrypoint.expand env "MINIO_SECRET_KEY_FILE")) eqn:Hs;
    [|split; [reflexivity | intros; reflexivity]].
  split; [split|].
  - rewrite lookup_insert_ne by discriminate. apply lookup_insert_eq.
  - apply lookup_insert_eq.
  - intros name Hna Hns.
    rewrite lookup_insert_ne by congruence.
    rewrite lookup_insert_ne by congruence. reflexivity.
Qed.

Lemma docker_secrets_env_both_or_neither_witness :
  exists env' : gmap string string,
    entrypoint.docker_secrets_env entrypoint.sample_fs
      {[ "MINIO_ACCESS_KEY_FILE" := "access";
         "MINIO_SECRET_KEY_FILE" := "secret" ]} = Some env' /\
    env' !! "MINIO_ACCESS_KEY" = Some "AKIA" /\
    env' !! "MINIO_SECRET_KEY" = Some "s3cr3t".
Proof.
  destruct (docker_secrets_env_both_or_neither entrypoint.sample_fs
              {[ "MINIO_ACCESS_KEY_FILE" := "access";
                 "MINIO_SECRET_KEY_FILE" := "secret" ]})
    as (env' & Henv & Hkeys & _); [vm_compute; reflexivity ..|].
  exists env'. split; [exact Henv | exact Hkeys].
Defined.


(** X17: when no argument is a directory (the words minio, gateway and
    server are not looked up), nothing is created or chowned; with the word
    gateway among the arguments the command runs as minio, and without it,
    unless the variable owner was minio or root on entry, the script exits
    with status 1. *)
Theorem docker_switch_non_root_without_directory
    (fs : entrypoint.FileSystem) (owner0 : string) (args : list string) :
  entrypoint.no_directory fs args = true ->
  entrypoint.actions (snd (entrypoint.docker_switch_non_root fs owner0 args))
    = [] /\
  (entrypoint.has_gateway args = true ->
   fst (entrypoint.docker_switch_non_root fs owner0 args)
     = entrypoint.SuExec "minio" args) /\
  (entrypoint.has_gateway args = false ->
   owner0 <> "minio" -> owner0 <> "root" ->
   fst (entrypoint.docker_switch_non_root fs owner0 args)
     = entrypoint.ExitStatus 1).
Proof.
  intros Hn. unfold entrypoint.docker_switch_non_root.
  rewrite (scan_no_directory fs args _ Hn). cbn [entrypoint.owner
    entrypoint.echoed entrypoint.actions].
  destruct (entrypoint.has_gateway args).
  - cbn. repeat split. discriminate.
  - split; [|split; [discriminate|]].
    + destruct (String.eqb owner0 "minio"); [reflexivity|].
      destruct (String.eqb owner0 "root"); reflexivity.
    + intros _ Hm Hr. apply String.eqb_neq in Hm, Hr. rewrite Hm, Hr.
      reflexivity.
Qed.

(** [minio server /missing], where [/missing] is no directory, exits with
    status 1; [minio gateway s3] runs as minio. *)
Lemma docker_switch_non_root_without_directory_witness :
  fst (entrypoint.docker_switch_non_root entrypoint.sample_fs ""
         ["minio"; "server"; "/missing"]) = entrypoint.ExitStatus 1 /\
  fst (entrypoint.docker_switch_non_root entrypoint.sample_fs ""
         ["minio"; "gateway"; "s3"])
    = entrypoint.SuExec "minio" ["minio"; "gateway"; "s3"].
Proof.
  split.
  - apply (proj2 (proj2 (docker_switch_non_root_without_directory
                           entrypoint.sample_fs ""
                           ["minio"; "server"; "/missing"] eq_refl)));
      [reflexivity | discriminate | discriminate].
  - apply (proj1 (proj2 (docker_switch_non_root_without_directory
                           entrypoint.sample_fs ""
                           ["minio"; "gateway"; "s3"] eq_refl))).
    reflexivity.
Defined.

(** X18: the words minio, gateway and server are never tested for being a
    directory; the first of the other arguments that is a directory decides,
    and the arguments after it are not looked at.  If it holds no
    [.minio.sys] it is made, handed to minio, and the command runs as minio.  If it holds one,
    nothing is created or chowned and the owner of [.minio.sys] decides:
    minio runs through su-exec, root runs as it is, any other owner makes
    the script exit with status 1. *)
Theorem docker_switch_non_root_first_directory
    (fs : entrypoint.FileSystem) (owner0 : string) (pre post : list string)
    (d : string) :
  entrypoint.no_directory fs pre = true ->
  entrypoint.skipped d = false ->
  entrypoint.is_dir fs d = true ->
  let args := pre ++ d :: post in
  let r := entrypoint.docker_switch_non_root fs owner0 args in
  let o := entrypoint.ls_owner fs (d +:+ "/.minio.sys") in
  if entrypoint.is_dir fs (d +:+ "/.minio.sys")
  then entrypoint.actions (snd r) = [] /\
       fst r = (if String.eqb o "minio" then entrypoint.SuExec "minio" args
                else if String.eqb o "root" then entrypoint.Exec args
                else entrypoint.ExitStatus 1)
  else r = (entrypoint.SuExec "minio" args,
            entrypoint.mkScan "minio"
              (map entrypoint.echo_var (pre ++ [d]))
              [entrypoint.Mkdir_p d; entrypoint.Chown_minio d]).
Proof.
  intros Hpre Hd Hdir. cbv zeta. unfold entrypoint.docker_switch_non_root.
  rewrite (scan_first_directory fs pre post d _ Hpre Hd Hdir).
  destruct (entrypoint.is_dir fs (d +:+ "/.minio.sys")).
  - cbn [entrypoint.owner entrypoint.echoed entrypoint.actions].
    destruct (String.eqb_spec (entrypoint.ls_owner fs (d +:+ "/.minio.sys"))
                "minio") as [Hm|_].
    + cbn [fst snd entrypoint.actions]. rewrite Hm. split; reflexivity.
    + destruct (String.eqb _ "root"); split; reflexivity.
  - reflexivity.
Qed.

(** In the sample, [/data] is fresh, [/export] holds a [.minio.sys] of
    root and [/home] one of the user app. *)
Lemma docker_switch_non_root_first_directory_witness :
  entrypoint.docker_switch_non_root entrypoint.sample_fs ""
    ["minio"; "server"; "/data"; "/export"] =
  (entrypoint.SuExec "minio" ["minio"; "server"; "/data"; "/export"],
   entrypoint.mkScan "minio" [" var minio"; " var server"; " var /data"]
     [entrypoint.Mkdir_p "/data"; entrypoint.Chown_minio "/data"]) /\
  fst (entrypoint.docker_switch_non_root entrypoint.sample_fs ""
         ["minio"; "server"; "/export"])
    = entrypoint.Exec ["minio"; "server"; "/export"] /\
  fst (entrypoint.docker_switch_non_root entrypoint.sample_fs ""
         ["minio"; "server"; "/home"]) = entrypoint.ExitStatus 1.
Proof.
  split; [|split].
  - exact (docker_switch_non_root_first_directory entrypoint.sample_fs ""
             ["minio"; "server"] ["/export"] "/data"
             eq_refl eq_refl eq_refl).
  - exact (proj2 (docker_switch_non_root_first_directory
                    entrypoint.sample_fs "" ["minio"; "server"] [] "/export"
                    eq_refl eq_refl eq_refl)).
  - exact (proj2 (docker_switch_non_root_first_directory
                    entrypoint.sample_fs "" ["minio"; "server"] [] "/home"
                    eq_refl eq_refl eq_refl)).
Defined.

(** X19: [docker_switch_non_root] never changes an existing deployment.
    It either touches nothing, or it makes and chowns exactly one directory,
    which is one of its arguments, is a directory and holds no [.minio.sys];
    in that case the command runs as minio. *)
Theorem docker_switch_non_root_actions (fs : entrypoint.FileSystem)
    (owner0 : string) (args : list string) :
  entrypoint.actions (snd (entrypoint.docker_switch_non_root fs owner0 args))
    = [] \/
  exists d, In d args /\ entrypoint.is_dir fs d = true /\
            entrypoint.is_dir fs (d +:+ "/.minio.sys") = false /\
            entrypoint.actions
              (snd (entrypoint.docker_switch_non_root fs owner0 args))
              = [entrypoint.Mkdir_p d; entrypoint.Chown_minio d] /\
            fst (entrypoint.docker_switch_non_root fs owner0 args)
              = entrypoint.SuExec "minio" args.
Proof.
  unfold entrypoint.docker_switch_non_root. cbv zeta.
  destruct (scan_actions fs args (entrypoint.mkScan owner0 [] []))
    as [Ha|(d & Hin & _ & Hdir & Hsys & Ha & Ho)];
    cbn [entrypoint.actions app] in Ha.
  - left. destruct (String.eqb _ "minio"); [exact Ha|].
    destruct (String.eqb _ "root"); exact Ha.
  - right. exists d. rewrite Ho, String.eqb_refl. cbn [fst snd].
    repeat split; auto.
Qed.


